(** * A shallow embedding of [beatwatch_process.parsers] (BEATwatch file parser).

    Source: [src/beatwatch_process/parsers.py] and [filedata.py].

    Modelling conventions.
    - Text is [string] (the files are ASCII; Python's character predicates
      are written out for ASCII code points).
    - Python exceptions are the inductive [exn]; every [print] call is a
      diagnostic [diag] appended to a log, so the log survives an exception
      raised after it, as console output does.
    - Timestamps and timedeltas are pandas' int64 nanosecond counts ([Z]);
      [None : option Z] is [pd.NaT].  A time-zone conversion does not move
      the instant, so instants are kept in UTC.
    - Library behaviour that the repository only calls is taken as a Section
      variable: [json.loads] on a line starting with '{', [pd.to_datetime] on
      a string, and the pandas cast of survey rows to [cols_survey]. *)

From Stdlib Require Import String Ascii ZArith List QArith Bool Lia.
Import ListNotations.
Open Scope string_scope.
Open Scope Z_scope.
Set Warnings "-register-all".


(* ------------------------------------------------------------------ *)
(** ** Python exceptions, console output, and the effect monad *)

Inductive exn :=
| IndexError
| ValueError
| KeyError (k : string)
| TypeError
| AttributeError
| OverflowError
| FileNotFoundError
| OSError
| RecursionError
| CsvError.

Inductive result (A : Type) :=
| Ok (a : A)
| Exc (e : exn).
Arguments Ok {A} a.
Arguments Exc {A} e.

(** State-and-exception monad: the state is threaded through, and an
    exception keeps the state reached when it was raised. *)
Definition M (S A : Type) := S -> S * result A.

Definition ret {S A} (a : A) : M S A := fun s => (s, Ok a).
Definition raise {S A} (e : exn) : M S A := fun s => (s, Exc e).
Definition bind {S A B} (m : M S A) (k : A -> M S B) : M S B :=
  fun s => match m s with
           | (s', Ok a) => k a s'
           | (s', Exc e) => (s', Exc e)
           end.
Definition try_with {S A} (m : M S A) (h : exn -> M S A) : M S A :=
  fun s => match m s with
           | (s', Exc e) => h e s'
           | r => r
           end.
Definition lift {S A} (r : result A) : M S A :=
  match r with Ok a => ret a | Exc e => raise e end.

Notation "x <- m ;; k" := (bind m (fun x => k))
  (at level 61, m at next level, right associativity).
Notation "m ;; k" := (bind m (fun _ => k))
  (at level 61, right associativity).

Fixpoint mapM {S A B} (f : A -> M S B) (l : list A) : M S (list B) :=
  match l with
  | [] => ret []
  | x :: xs => y <- f x;; ys <- mapM f xs;; ret (y :: ys)
  end.

(** Pure computations that may raise. *)
Definition rbind {A B} (r : result A) (k : A -> result B) : result B :=
  match r with Ok a => k a | Exc e => Exc e end.

Fixpoint rmap {A B} (f : A -> result B) (l : list A) : result (list B) :=
  match l with
  | [] => Ok []
  | x :: xs => rbind (f x) (fun y => rbind (rmap f xs) (fun ys => Ok (y :: ys)))
  end.

(* ------------------------------------------------------------------ *)
(** ** Python string primitives *)

(** [str.isspace] on ASCII: space, \t \n \v \f \r and \x1c-\x1f. *)
Definition is_space (c : ascii) : bool :=
  let n := nat_of_ascii c in
  (n =? 32)%nat || ((9 <=? n) && (n <=? 13))%nat || ((28 <=? n) && (n <=? 31))%nat.

(** [str.isdigit] on ASCII. *)
Definition is_digit (c : ascii) : bool :=
  let n := nat_of_ascii c in ((48 <=? n) && (n <=? 57))%nat.

Fixpoint lstrip_by (p : ascii -> bool) (s : string) : string :=
  match s with
  | String c r => if p c then lstrip_by p r else s
  | EmptyString => EmptyString
  end.

Definition rev_str (s : string) : string :=
  string_of_list_ascii (rev (list_ascii_of_string s)).

(** [s.strip()] and [s.strip(chars)]. *)
Definition strip_by (p : ascii -> bool) (s : string) : string :=
  rev_str (lstrip_by p (rev_str (lstrip_by p s))).
Definition py_strip (s : string) : string := strip_by is_space s.
Definition py_strip_chars (c : ascii) (s : string) : string :=
  strip_by (fun d => Ascii.eqb d c) s.

Definition startswith (c : ascii) (s : string) : bool :=
  match s with String d _ => Ascii.eqb c d | EmptyString => false end.

(** [s[0]]: raises [IndexError] on the empty string. *)
Definition str_index0 (s : string) : result ascii :=
  match s with String c _ => Ok c | EmptyString => Exc IndexError end.

Definition digit_val (c : ascii) : Z := Z.of_nat (nat_of_ascii c) - 48.

(** [int(s)] for a [str]: surrounding whitespace, an optional sign, decimal
    digits with single underscores between digits. *)
Fixpoint digits_val (acc : Z) (prev_digit : bool) (l : list ascii) : option Z :=
  match l with
  | [] => if prev_digit then Some acc else None
  | c :: r =>
      if is_digit c then digits_val (10 * acc + digit_val c) true r
      else if Ascii.eqb c "_"%char then
        (if prev_digit then
           match r with
           | d :: _ => if is_digit d then digits_val acc false r else None
           | [] => None
           end
         else None)
      else None
  end.

(** [sys.int_info.default_max_str_digits]: from Python 3.11 on, [int()] of a
    [str] with more digits raises [ValueError]. *)
Definition max_str_digits : Z := 4300.

Fixpoint count_digits (l : list ascii) : Z :=
  match l with
  | [] => 0
  | c :: r => (if is_digit c then 1 else 0) + count_digits r
  end.

Definition py_int (s : string) : result Z :=
  let conv (sign : Z) (r : list ascii) :=
    match digits_val 0 false r with
    | Some n => if max_str_digits <? count_digits r then Exc ValueError else Ok (sign * n)
    | None => Exc ValueError
    end in
  match list_ascii_of_string (py_strip s) with
  | "-"%char :: r => conv (-1) r
  | "+"%char :: r => conv 1 r
  | r => conv 1 r
  end.

(** [num / den] for [den > 0], rounded to the nearest integer, ties to even. *)
Definition round_half_even (num den : Z) : Z :=
  let q := num / den in
  let r := num mod den in
  if 2 * r <? den then q
  else if den <? 2 * r then q + 1
  else if Z.even q then q else q + 1.

(** [n / 10] for an int [n] (CPython's [long_true_divide]): the double
    nearest to n/10, ties to even, as [(m, e)] for [m * 2^e] with
    [2^52 <= |m| < 2^53] (or [m = 0]); [OverflowError] ("integer division
    result too large for a float") when it is 2^1024 or more. *)
Definition true_div10 (n : Z) : result (Z * Z) :=
  if n =? 0 then Ok (0, 0) else
  let a := Z.abs n in
  let k := Z.log2 a in
  (* 2^l <= a / 10 < 2^(l + 1) *)
  let l := if 10 * 2 ^ k <=? 8 * a then k - 3 else k - 4 in
  let e := l - 52 in
  let m := if 0 <=? e then round_half_even a (10 * 2 ^ e)
           else round_half_even (a * 2 ^ (- e)) 10 in
  let '(m', e') := if m =? 2 ^ 53 then (2 ^ 52, e + 1) else (m, e) in
  if 971 <? e' then Exc OverflowError else Ok (Z.sgn n * m', e').

(** [round(x)] for the float [x = m * 2^e]: half to even, an exact int. *)
Definition py_round (m e : Z) : Z :=
  if 0 <=? e then m * 2 ^ e else round_half_even m (2 ^ (- e)).

(** [round(n / 10)] for an int [n]. *)
Definition round_div10 (n : Z) : result Z :=
  rbind (true_div10 n) (fun me => Ok (py_round (fst me) (snd me))).

(* ------------------------------------------------------------------ *)
(** ** [csv.reader] with the default (excel) dialect, on one line

    The states of CPython's [_csv.c] reader; the line has no line break. *)

(** The double-quote character, code 34. *)
Definition quote_char : ascii := ascii_of_nat 34.

Inductive csv_state := StartField | InField | InQuoted | QuoteInQuoted.

Fixpoint csv_go (st : csv_state) (field : list ascii) (l : list ascii)
  : list (list ascii) :=
  match l with
  | [] =>
      (* end of the line (non-strict: an open quote ends the field) *)
      [rev field]
  | c :: r =>
      match st with
      | StartField =>
          if Ascii.eqb c quote_char then csv_go InQuoted [] r
          else if Ascii.eqb c ","%char then [] :: csv_go StartField [] r
          else csv_go InField [c] r
      | InField =>
          if Ascii.eqb c ","%char then rev field :: csv_go StartField [] r
          else csv_go InField (c :: field) r
      | InQuoted =>
          if Ascii.eqb c quote_char then csv_go QuoteInQuoted field r
          else csv_go InQuoted (c :: field) r
      | QuoteInQuoted =>
          if Ascii.eqb c quote_char then csv_go InQuoted (c :: field) r
          else if Ascii.eqb c ","%char then rev field :: csv_go StartField [] r
          else csv_go InField (c :: field) r
      end
  end.

(** [csv.field_size_limit()]: the reader raises [_csv.Error] when a field
    grows beyond it. *)
Definition field_size_limit : Z := 131072.

(** [next(csv.reader([line]))] for a non-empty line. *)
Definition csv_row (line : string) : result (list string) :=
  let fields := csv_go StartField [] (list_ascii_of_string line) in
  if existsb (fun f => field_size_limit <? Z.of_nat (length f)) fields then Exc CsvError
  else Ok (map string_of_list_ascii fields).

Example csv_row_ex1 : csv_row ",x" = Ok [""; "x"].
Proof. reflexivity. Qed.
Example csv_row_ex2 :
  csv_row (String quote_char ("a" ++ String quote_char (String quote_char
             ("b" ++ String quote_char ",c"))))
  = Ok [String "a" (String quote_char "b"); "c"].
Proof. reflexivity. Qed.
Example csv_row_ex4 : csv_row "a," = Ok ["a"; ""].
Proof. reflexivity. Qed.
Example round_ex : round_div10 95 = Ok 10 /\ round_div10 72 = Ok 7
                   /\ round_div10 (-25) = Ok (-2) /\ round_div10 15 = Ok 2
                   /\ round_div10 (10 ^ 18 + 7) = Ok (10 ^ 17)
                   /\ round_div10 (10 ^ 400) = Exc OverflowError.
Proof. repeat split; vm_compute; reflexivity. Qed.
Example py_int_ex : py_int " 1_0 " = Ok 10 /\ py_int "" = Exc ValueError
                    /\ py_int "-7" = Ok (-7).
Proof. repeat split; reflexivity. Qed.

(* ------------------------------------------------------------------ *)
(** ** Values: JSON, dictionaries, metadata, cells *)

(** A decoded JSON value ([json.loads] also accepts NaN and Infinity). *)
Inductive json :=
| JNull
| JBool (b : bool)
| JInt (z : Z)
| JFloat (q : Q)
| JNaN
| JInf (negative : bool)
| JStr (s : string)
| JArr (l : list json)
| JObj (kvs : list (string * json)).

(** A Python [dict] with string keys, in insertion order. *)
Definition dict (V : Type) := list (string * V).

(** What [json.loads] does on a line that starts with '{': the decoded
    dict, a [JSONDecodeError], or another exception, which the
    [except json.JSONDecodeError] does not catch ([RecursionError] on deep
    nesting, [ValueError] on an integer of more than [max_str_digits]
    digits). *)
Inductive loads_result :=
| Loaded (o : dict json)
| DecodeError
| LoadsRaised (e : exn).

Fixpoint dict_get {V} (k : string) (d : dict V) : option V :=
  match d with
  | [] => None
  | (k', v) :: r => if String.eqb k k' then Some v else dict_get k r
  end.

(** [d[k] = v]: an existing key keeps its place, a new key goes last. *)
Fixpoint dict_set {V} (k : string) (v : V) (d : dict V) : dict V :=
  match d with
  | [] => [(k, v)]
  | (k', v') :: r => if String.eqb k k' then (k, v) :: r else (k', v') :: dict_set k v r
  end.

Definition dict_mem {V} (k : string) (d : dict V) : bool :=
  match dict_get k d with Some _ => true | None => false end.

(** [for k, v in items: d[prefix + k] = v]. *)
Definition dict_set_all {V W} (prefix : string) (f : V -> W) (kvs : dict V) (d : dict W)
  : dict W :=
  fold_left (fun acc kv => dict_set (prefix ++ fst kv) (f (snd kv)) acc) kvs d.

(** [v.items()] on a decoded JSON value: only a mapping has it. *)
Definition items (v : json) : result (dict json) :=
  match v with JObj kvs => Ok kvs | _ => Exc AttributeError end.

(** [v[k]] on a decoded JSON value. *)
Definition subscript (v : json) (k : string) : result json :=
  match v with
  | JObj kvs => match dict_get k kvs with Some x => Ok x | None => Exc (KeyError k) end
  | _ => Exc TypeError
  end.

(** [v == "..."] against a [str]. *)
Definition json_eq_str (v : json) (s : string) : bool :=
  match v with JStr t => String.eqb t s | _ => false end.

(** A metadata value: a JSON value, a row count, or a duration
    ([pd.Timedelta] in ns, or [NaT]). *)
Inductive mval :=
| MJson (j : json)
| MCount (n : Z)
| MDuration (d : option Z).

(** A cell of a CSV row: the parsed text, or the [int] written into
    [row[1]] by the legacy heart-rate transform. *)
Inductive cell :=
| CStr (s : string)
| CInt (z : Z).

(** Every [print] of the module. *)
Inductive diag :=
| DReading (file_name : string)
| DJsonError (n : nat)
| DBadAccel (row : list string)
| DBadHr (row : list string)
| DUnknownData (row : list string)
| DFileNotFound (file_name : string)
| DError (e : exn)
| DDropped (n : Z)
| DNoMetadata
| DUnknownObject (o : dict json)
| DNoStartTimestamp (e : exn)
| DSelecting (t1 t2 : Z)
| DIgnoringDuration
| DStartOutOfRange
| DEndOutOfRange
| DSamples (name : string) (n : nat).

Definition emit (d : diag) : M (list diag) unit := fun lg => ((lg ++ [d])%list, Ok tt).

(* ------------------------------------------------------------------ *)
(** ** Column types and casts ([DataFrame.astype]) *)

Inductive dtype := Int64 | Int32 | Int16 | UInt8.

Definition cols_hr : list (string * dtype) :=
  [("time_elapsed", Int64); ("heart_rate_bpm", Int16); ("confidence", UInt8);
   ("ppg_raw", Int32); ("ppg_filter", Int32)].

Definition cols_accel : list (string * dtype) :=
  [("time_elapsed", Int64); ("x", Int32); ("y", Int32); ("z", Int32);
   ("magnitude", Int32); ("difference", Int32)].

Definition in_i64 (z : Z) : bool := (- 2 ^ 63 <=? z) && (z <? 2 ^ 63).

Definition signed_wrap (w z : Z) : Z :=
  let r := z mod 2 ^ w in if r <? 2 ^ (w - 1) then r else r - 2 ^ w.

(** The C conversion of an int64 to the column's width. *)
Definition wrap (t : dtype) (z : Z) : Z :=
  match t with
  | Int64 => z
  | Int32 => signed_wrap 32 z
  | Int16 => signed_wrap 16 z
  | UInt8 => z mod 256
  end.

(** One cell cast to the column type.  A text cell goes through numpy's
    element conversion: [int(s)] (ValueError), then a C long (OverflowError),
    then the C conversion to the width.  A column of Python [int]s is first
    inferred as int64 by the DataFrame constructor, then cast to the width;
    ints outside int64 raise. *)
Definition cast_cell (t : dtype) (c : cell) : result Z :=
  match c with
  | CStr s => rbind (py_int s) (fun n =>
                if in_i64 n then Ok (wrap t n) else Exc OverflowError)
  | CInt n => if in_i64 n then Ok (wrap t n) else Exc OverflowError
  end.

Fixpoint cast_row (cols : list (string * dtype)) (row : list cell) : result (list Z) :=
  match cols, row with
  | [], [] => Ok []
  | (_, t) :: cs, c :: r =>
      rbind (cast_cell t c) (fun z => rbind (cast_row cs r) (fun zs => Ok (z :: zs)))
  | _, _ => Exc ValueError
  end.

(** Timestamps and timedeltas live in int64 ns, [iNaT = -2^63] being [NaT]. *)
Definition iNaT : Z := - 2 ^ 63.
Definition in_ns_range (z : Z) : bool := (- 2 ^ 63 <? z) && (z <? 2 ^ 63).

(** [pd.to_timedelta(v, unit="ms")] on an int64: the int64 minimum is
    [NaT] (kept, not dropped); a value whose ns count leaves int64 raises
    [OutOfBoundsTimedelta], a ValueError. *)
Definition ms_to_ns (ms : Z) : result Z :=
  if ms =? iNaT then Ok iNaT
  else let v := ms * 1000000 in if in_ns_range v then Ok v else Exc ValueError.

Fixpoint col_pos (name : string) (cols : list (string * dtype)) : option nat :=
  match cols with
  | [] => None
  | (c, _) :: r => if String.eqb c name then Some 0%nat
                   else option_map S (col_pos name r)
  end.

Fixpoint update_nth_r (i : nat) (f : Z -> result Z) (l : list Z) : result (list Z) :=
  match i, l with
  | _, [] => Ok []
  | O, x :: r => rbind (f x) (fun y => Ok (y :: r))
  | S j, x :: r => rbind (update_nth_r j f r) (fun r' => Ok (x :: r'))
  end.

(** A converted hr or accel table: one list of column values per row. *)
Definition frame := list (list Z).

Definition is_na (c : cell) : bool :=
  match c with CStr EmptyString => true | _ => false end.
Definition row_has_na (row : list cell) : bool := existsb is_na row.

(** [Parser._dataframe_from_list] with [timedelta_cols=["time_elapsed"]]. *)
Definition dataframe_from_list (rows : list (list cell)) (cols : list (string * dtype))
  : M (list diag) frame :=
  (if forallb (fun r => Nat.eqb (length r) (length cols)) rows then ret tt
   else raise ValueError);;
  let n_df_full := Z.of_nat (length rows) in
  let kept := filter (fun r => negb (row_has_na r)) rows in
  let n_df_na := Z.of_nat (length kept) in
  let n_dropped := n_df_full - n_df_na in
  (if 0 <? n_dropped then emit (DDropped n_dropped) else ret tt);;
  cast <- lift (rmap (cast_row cols) kept);;
  match col_pos "time_elapsed" cols with
  | Some i => lift (rmap (update_nth_r i ms_to_ns) cast)
  | None => raise (KeyError "time_elapsed")
  end.

(* ------------------------------------------------------------------ *)
(** ** Record start, survey rows, tables and the parse result *)

(** What [pd.to_datetime(v, utc=True).tz_convert(tz)] returns: [NaT], one
    timestamp, or (for a list) a [DatetimeIndex]. *)
Inductive start :=
| SNaT
| STs (ns : Z)
| SIdx (l : list (option Z)).

(** One survey row after [astype(cols_survey)] and
    [pd.to_datetime(timeStamp, unit="ms", utc=True)]. *)
Record survey_cells := mkSurveyCells {
  sv_number : Z;
  sv_item : Z;
  sv_question : json;
  sv_input : json;
  sv_range : json;
  sv_response : json;
  sv_time_absolute : option Z }.

Record survey_row := mkSurveyRow {
  sv_cells : survey_cells;
  sv_time_elapsed : option Z }.

(** An hr or accel row after the back-fill: its columns, then
    [time_absolute]. *)
Record trow := mkTrow {
  cells : list Z;
  time_absolute : option Z }.

(** [time_elapsed] is the first column of [cols_hr] and of [cols_accel]. *)
Definition time_elapsed (r : list Z) : Z := hd 0 r.

(** [FileData]: [metadata] and the [NotRequired] tables. *)
Record file_data := mkFileData {
  metadata : dict mval;
  data_hr : option (list trow);
  data_accel : option (list trow);
  data_survey : option (list survey_row) }.

(** The file named by [file_name], as [open] and the line iterator see it:
    missing, failing to open, or its lines followed (maybe) by the exception
    raised when reading on. *)
Inductive file_src :=
| FNotFound
| FOpenFailed (e : exn)
| FLines (lines : list string) (tail : option exn).

(** The locals of [parse_file] that the reading loop mutates. *)
Record pstate := mkP {
  p_log : list diag;
  p_json_objs : list (nat * dict json);
  p_rows_hr : list (list cell);
  p_rows_accel : list (list cell) }.

Definition on_log {A} (m : M (list diag) A) : M pstate A :=
  fun s => let (lg, r) := m (p_log s) in
           (mkP lg (p_json_objs s) (p_rows_hr s) (p_rows_accel s), r).

Definition add_json_obj (n : nat) (o : dict json) : M pstate unit :=
  fun s => (mkP (p_log s) (app (p_json_objs s) [(n, o)]) (p_rows_hr s) (p_rows_accel s),
            Ok tt).
Definition add_hr (row : list cell) : M pstate unit :=
  fun s => (mkP (p_log s) (p_json_objs s) (app (p_rows_hr s) [row]) (p_rows_accel s),
            Ok tt).
Definition add_accel (row : list cell) : M pstate unit :=
  fun s => (mkP (p_log s) (p_json_objs s) (p_rows_hr s) (app (p_rows_accel s) [row]),
            Ok tt).

Fixpoint foldM {S A B} (f : A -> B -> M S A) (l : list B) (a : A) : M S A :=
  match l with
  | [] => ret a
  | x :: r => a' <- f a x;; foldM f r a'
  end.

(** [version < 0.2]. *)
Definition legacy_version (version : Q) : bool := negb (Qle_bool (2 # 10) version).

Definition ts_of_int (z : Z) : result (option Z) :=
  if z =? - 2 ^ 63 then Ok None
  else if in_ns_range z then Ok (Some z) else Exc OverflowError.

Definition q_trunc (q : Q) : Z := Z.quot (Qnum q) (Zpos (Qden q)).

(** pandas' int64 addition of ns counts ([add_overflowsafe]): an int64
    overflow raises, a sum equal to [iNaT] reads as [NaT]. *)
Definition checked_add (a b : Z) : result (option Z) :=
  if in_i64 (a + b) then Ok (if a + b =? iNaT then None else Some (a + b))
  else Exc OverflowError.

(** One element of [df["time_elapsed"] + start]: [NaT] on either side gives
    [NaT]. *)
Definition td_add_ts (te : Z) (t : option Z) : result (option Z) :=
  match t with
  | Some x => if te =? iNaT then Ok None else checked_add te x
  | None => Ok None
  end.

(** [df["time_elapsed"] + start]. *)
Definition add_start (tes : list Z) (s : start) : result (list (option Z)) :=
  match s with
  | SNaT => Ok (map (fun _ => None) tes)
  | STs t => rmap (fun te => td_add_ts te (Some t)) tes
  | SIdx l =>
      if Nat.eqb (length l) (length tes) then
        rmap (fun p => td_add_ts (fst p) (snd p)) (combine tes l)
      else Exc ValueError
  end.

(** [df["time_absolute"] - start] (survey rows). *)
Definition sub_start (tas : list (option Z)) (s : start) : result (list (option Z)) :=
  let sub1 (a : option Z) (t : option Z) :=
    match a, t with
    | Some x, Some y => checked_add x (- y)
    | _, _ => Ok None
    end in
  match s with
  | SNaT => Ok (map (fun _ => None) tas)
  | STs t => rmap (fun a => sub1 a (Some t)) tas
  | SIdx l =>
      if Nat.eqb (length l) (length tas) then
        rmap (fun p => sub1 (fst p) (snd p)) (combine tas l)
      else Exc ValueError
  end.

Fixpoint max_opt (l : list Z) : option Z :=
  match l with
  | [] => None
  | x :: r => match max_opt r with None => Some x | Some m => Some (Z.max x m) end
  end.

(** [Series.max()] on a timedelta column: [NaT] entries are skipped, and
    the result is [NaT] when none is left. *)
Definition td_max (l : list Z) : option Z := max_opt (filter (fun z => negb (z =? iNaT)) l).

Definition nonempty {A} (l : list A) : option (list A) :=
  match l with [] => None | _ => Some l end.

Definition meta_init (now : string) : dict mval :=
  [("Parsed_on", MJson (JStr now)); ("StudyName", MJson (JStr "NA"));
   ("StudyInstance", MJson (JStr "NA"))].

(* ------------------------------------------------------------------ *)
(** ** [class Parser] *)

Section Parser.

(** [json.loads] on a stripped line that starts with '{'. *)
Variable json_loads : string -> loads_result.
(** [pd.to_datetime(s, utc=True)] on a [str]: [None] when it raises,
    [Some None] for [NaT]. *)
Variable str_to_datetime : string -> option (option Z).
(** The cast of one survey object to [cols_survey], with [time_absolute]
    from its [timeStamp] in ms; an exception aborts the whole cast. *)
Variable survey_cast : dict json -> result survey_cells.

(** The body of the [for n, raw_line in enumerate(f)] loop. *)
Definition read_line (version : Q) (n : nat) (raw_line : string) : M pstate unit :=
  let line := py_strip raw_line in
  match line with
  | EmptyString => ret tt
  | String c0 _ =>
      if Ascii.eqb c0 "{"%char then
        match json_loads line with
        | Loaded o => add_json_obj n o
        | DecodeError => on_log (emit (DJsonError n))
        | LoadsRaised e => raise e
        end
      else
        row <- lift (csv_row line);;
        match row with
        | [] => ret tt
        | r0 :: rest =>
            if startswith "A"%char r0 && Nat.eqb (length row) (length cols_accel) then
              add_accel (map CStr (py_strip_chars "A"%char r0 :: rest))
            else if startswith "A"%char r0 then
              on_log (emit (DBadAccel row))
            else
              d <- lift (str_index0 r0);;
              if is_digit d && Nat.eqb (length row) (length cols_hr) then
                (if legacy_version version then
                   match rest with
                   | r1 :: rest' =>
                       hr <- lift (py_int r1);;
                       hr' <- lift (round_div10 hr);;
                       add_hr (CStr r0 :: CInt hr' :: map CStr rest')
                   | [] => raise IndexError
                   end
                 else add_hr (map CStr row))
              else if is_digit d then
                on_log (emit (DBadHr row))
              else
                on_log (emit (DUnknownData row))
        end
  end.

Fixpoint read_lines (version : Q) (n : nat) (lines : list string) : M pstate unit :=
  match lines with
  | [] => ret tt
  | l :: r => read_line version n l;; read_lines version (S n) r
  end.

(** The [try] block of [parse_file] with its two handlers. *)
Definition read_file (file_name : string) (version : Q) (f : file_src) : M pstate unit :=
  try_with
    (match f with
     | FNotFound => raise FileNotFoundError
     | FOpenFailed e => raise e
     | FLines lines tail =>
         on_log (emit (DReading file_name));;
         read_lines version 0 lines;;
         match tail with Some e => raise e | None => ret tt end
     end)
    (fun e => match e with
              | FileNotFoundError => on_log (emit (DFileNotFound file_name))
              | _ => on_log (emit (DError e))
              end).

(** One iteration of the loop of [_process_json_objs]. *)
Definition process_obj (acc : dict mval * list (dict json)) (o : dict json)
  : M (list diag) (dict mval * list (dict json)) :=
  let (meta, rows_survey) := acc in
  match dict_get "File" o with
  | Some v =>
      kvs <- lift (items v);;
      ret (dict_set_all "" MJson kvs meta, rows_survey)
  | None =>
  match dict_get "Status" o with
  | Some v =>
      kvs <- lift (items v);;
      let meta1 := dict_set_all "status_" MJson kvs meta in
      st <- lift (subscript v "state");;
      if json_eq_str st "START_RECORD" then
        r <- lift (subscript (JObj o) "Record");;
        kvs' <- lift (items r);;
        ret (dict_set_all "start_" MJson kvs' meta1, rows_survey)
      else if json_eq_str st "STOP_RECORD" then
        r <- lift (subscript (JObj o) "Record");;
        kvs' <- lift (items r);;
        ret (dict_set_all "stop_" MJson kvs' meta1, rows_survey)
      else ret (meta1, rows_survey)
  | None =>
  match dict_get "Record" o with
  | Some v =>
      st <- lift (subscript v "State");;
      if json_eq_str st "START_RECORD" then
        kvs <- lift (items v);;
        ret (dict_set_all "start_" MJson kvs meta, rows_survey)
      else if json_eq_str st "STOP_RECORD" then
        kvs <- lift (items v);;
        ret (dict_set_all "stop_" MJson kvs meta, rows_survey)
      else ret (meta, rows_survey)
  | None =>
      if dict_mem "question" o then ret (meta, app rows_survey [o])
      else emit (DUnknownObject o);; ret (meta, rows_survey)
  end end end.

(** [pd.to_datetime(x, utc=True)] on one JSON scalar (as a list element). *)
Definition to_datetime_elem (j : json) : result (option Z) :=
  match j with
  | JInt z => ts_of_int z
  | JFloat q => ts_of_int (q_trunc q)
  | JNaN | JNull => Ok None
  | JInf _ => Exc OverflowError
  | JStr s => match str_to_datetime s with Some t => Ok t | None => Exc ValueError end
  | _ => Exc TypeError
  end.

(** [pd.to_datetime(v, utc=True).tz_convert(tz)]: an int is read in pandas'
    default unit, ns; [None] gives [None] (no [tz_convert]); a dict cannot be
    assembled into one timestamp series with a datetime index; a list gives a
    [DatetimeIndex]. *)
Definition to_datetime_utc (v : mval) : result start :=
  match v with
  | MJson (JArr l) => rbind (rmap to_datetime_elem l) (fun xs => Ok (SIdx xs))
  | MJson JNull => Exc AttributeError
  | MJson (JObj _) => Exc ValueError
  | MJson j => rbind (to_datetime_elem j)
                 (fun t => Ok (match t with Some z => STs z | None => SNaT end))
  | MCount n => rbind (ts_of_int n)
                 (fun t => Ok (match t with Some z => STs z | None => SNaT end))
  | MDuration _ => Exc TypeError
  end.

(** [Parser._get_start_timestamp]. *)
Definition get_start_timestamp (metadata : dict mval) : M (list diag) start :=
  match dict_get "start_UNIXTimeStamp" metadata with
  | None => emit (DNoStartTimestamp (KeyError "start_UNIXTimeStamp"));; ret SNaT
  | Some v =>
      match to_datetime_utc v with
      | Ok s => ret s
      | Exc e => emit (DNoStartTimestamp e);; ret SNaT
      end
  end.

(** [Parser._process_json_objs]. *)
Definition process_json_objs (now : string) (json_objs : list (dict json))
  : M (list diag) (dict mval * list survey_row) :=
  acc <- (match json_objs with
          | [] => emit DNoMetadata;; ret (meta_init now, [])
          | _ => foldM process_obj json_objs (meta_init now, [])
          end);;
  let (meta_out, rows_survey) := acc in
  cs <- lift (rmap survey_cast rows_survey);;
  s <- get_start_timestamp meta_out;;
  tes <- lift (sub_start (map sv_time_absolute cs) s);;
  ret (meta_out, map (fun p => mkSurveyRow (fst p) (snd p)) (combine cs tes)).

(** [Parser._process_absolute_timestamps]. *)
Definition process_absolute_timestamps (metadata : dict mval) (df : frame)
  : M (list diag) (list trow) :=
  s <- get_start_timestamp metadata;;
  tas <- lift (add_start (map time_elapsed df) s);;
  ret (map (fun p => mkTrow (fst p) (snd p)) (combine df tas)).

Definition summary (df_hr df_accel : list trow) (df_survey : list survey_row)
  : dict mval :=
  [("n_samples_hr", MCount (Z.of_nat (length df_hr)));
   ("n_samples_accel", MCount (Z.of_nat (length df_accel)));
   ("n_survey_responses", MCount (Z.of_nat (length df_survey)));
   ("duration_hr", MDuration (td_max (map (fun r => time_elapsed (cells r)) df_hr)));
   ("duration_accel", MDuration (td_max (map (fun r => time_elapsed (cells r)) df_accel)))].

(** [Parser.update_metadata]. *)
Definition update_metadata (original new : dict mval) : dict mval :=
  fold_left (fun m kv => dict_set (fst kv) (snd kv) m) new original.

(** [parse_file] after the [try] block. *)
Definition build (now : string) (json_objs : list (dict json))
  (rows_hr rows_accel : list (list cell)) : M (list diag) file_data :=
  df_hr <- dataframe_from_list rows_hr cols_hr;;
  df_accel <- dataframe_from_list rows_accel cols_accel;;
  ms <- process_json_objs now json_objs;;
  let (meta, df_survey) := ms in
  hr <- process_absolute_timestamps meta df_hr;;
  accel <- process_absolute_timestamps meta df_accel;;
  let meta' := update_metadata meta (summary hr accel df_survey) in
  ret (mkFileData meta' (nonempty hr) (nonempty accel) (nonempty df_survey)).

(** [Parser.parse_file]; [now] is what [get_utc_now()] returns. *)
Definition parse_file (now file_name : string) (version : Q) (f : file_src)
  : list diag * result file_data :=
  let (s, _) := read_file file_name version f (mkP [] [] [] []) in
  build now (map snd (p_json_objs s)) (p_rows_hr s) (p_rows_accel s) (p_log s).

End Parser.

(* ------------------------------------------------------------------ *)
(** ** [select_period]

    The argument and the bundle are Python objects: they live on a heap
    ([list obj], a [loc] is an index, allocation appends), so that sharing
    and the absence of mutation can be stated. *)

(** [pd.Timestamp] / [pd.Timedelta], in ns. *)
Inductive tval := TS (ns : Z) | TD (ns : Z).

Definition tval_ns (t : tval) : Z := match t with TS n | TD n => n end.

(** [bool(x)] for [None], a [Timestamp] (a [datetime]: always true) and a
    [Timedelta] (false when zero). *)
Definition truthy (t : option tval) : bool :=
  match t with
  | None => false
  | Some (TS _) => true
  | Some (TD n) => negb (n =? 0)
  end.

Definition tadd (a b : tval) : result tval :=
  match a, b with
  | TS x, TD y | TD y, TS x =>
      if in_ns_range (x + y) then Ok (TS (x + y)) else Exc OverflowError
  | TD x, TD y => if in_ns_range (x + y) then Ok (TD (x + y)) else Exc OverflowError
  | TS _, TS _ => Exc TypeError
  end.

Definition tsub (a b : tval) : result tval :=
  match a, b with
  | TS x, TD y => if in_ns_range (x - y) then Ok (TS (x - y)) else Exc OverflowError
  | TD x, TD y | TS x, TS y =>
      if in_ns_range (x - y) then Ok (TD (x - y)) else Exc OverflowError
  | TD _, TS _ => Exc TypeError
  end.

(** Column dtypes as far as a comparison with a [tval] cares. *)
Inductive coltype := KTimestamp | KTimedelta | KOther.

Inductive pyval := PTime (t : option Z) | POther (j : json).

Record pframe := mkFrame {
  f_cols : list (string * coltype);
  f_rows : list (list pyval) }.

Definition loc := nat.

(** A heap object: a DataFrame, a dict (a bundle, or a metadata dict) of
    references, or any other value. *)
Inductive obj :=
| OFrame (f : pframe)
| ODict (entries : dict loc)
| OValue (j : json).

Record sstate := mkS { s_heap : list obj; s_log : list diag }.

Definition slog (d : diag) : M sstate unit :=
  fun s => (mkS (s_heap s) (app (s_log s) [d]), Ok tt).
Definition deref (l : loc) : M sstate obj :=
  fun s => match nth_error (s_heap s) l with
           | Some o => (s, Ok o)
           | None => (s, Exc TypeError)
           end.
Definition alloc (o : obj) : M sstate loc :=
  fun s => (mkS (app (s_heap s) [o]) (s_log s), Ok (length (s_heap s))).

Definition comparable (t : tval) (k : coltype) : bool :=
  match t, k with
  | TS _, KTimestamp | TD _, KTimedelta => true
  | _, _ => false
  end.

Fixpoint col_index (name : string) (cols : list (string * coltype))
  : option (nat * coltype) :=
  match cols with
  | [] => None
  | (c, k) :: r => if String.eqb c name then Some (0%nat, k)
                   else option_map (fun p => (S (fst p), snd p)) (col_index name r)
  end.

Definition time_of (v : pyval) : option Z :=
  match v with PTime t => t | POther _ => None end.

Fixpoint min_opt (l : list Z) : option Z :=
  match l with
  | [] => None
  | x :: r => match min_opt r with None => Some x | Some m => Some (Z.min x m) end
  end.

Fixpoint somes (l : list (option Z)) : list Z :=
  match l with
  | [] => []
  | Some x :: r => x :: somes r
  | None :: r => somes r
  end.

(** [t > m] / [t < m] against the column's [max()] / [min()] ([NaT] when the
    column has no value): false against [NaT], a [TypeError] across kinds. *)
Definition cmp_scalar (gt : bool) (t : tval) (m : option Z) (k : coltype) : result bool :=
  match m with
  | None => Ok false
  | Some x => if comparable t k then
                Ok (if gt then x <? tval_ns t else tval_ns t <? x)
              else Exc TypeError
  end.

(** [_select(name, df_in)]. *)
Definition select_one (t1 t2 : tval) (time_column_name : string) (name : string)
  (df_in : loc) : M sstate loc :=
  o <- deref df_in;;
  match o with
  | OFrame f =>
      match col_index time_column_name (f_cols f) with
      | None => raise (KeyError time_column_name)
      | Some (i, k) =>
          let col := map (fun r => time_of (nth i r (POther JNull))) (f_rows f) in
          let df_min := min_opt (somes col) in
          let df_max := max_opt (somes col) in
          c1 <- lift (cmp_scalar true t1 df_max k);;
          (if c1 then slog DStartOutOfRange
           else c2 <- lift (cmp_scalar false t2 df_min k);;
                if c2 then slog DEndOutOfRange else ret tt);;
          (if comparable t1 k && comparable t2 k then ret tt else raise TypeError);;
          let mask := map (fun v => match v with
                                    | Some x => (tval_ns t1 <=? x) && (x <=? tval_ns t2)
                                    | None => false
                                    end) col in
          slog (DSamples name (length (filter id mask)));;
          alloc (OFrame (mkFrame (f_cols f)
                   (map fst (filter snd (combine (f_rows f) mask)))))
      end
  | _ => ret df_in
  end.

(** The computation of [t1] and [t2] from the three optional arguments. *)
Definition period_bounds (time_start time_end duration : option tval)
  : M sstate (tval * tval) :=
  if truthy time_start && truthy time_end then
    (if truthy duration then slog DIgnoringDuration else ret tt);;
    match time_start, time_end with
    | Some a, Some b => ret (a, b)
    | _, _ => raise TypeError
    end
  else if truthy time_start && truthy duration then
    match time_start, duration with
    | Some a, Some d => b <- lift (tadd a d);; ret (a, b)
    | _, _ => raise TypeError
    end
  else if truthy time_end && truthy duration then
    match time_end, duration with
    | Some b, Some d => a <- lift (tsub b d);; ret (a, b)
    | _, _ => raise TypeError
    end
  else raise ValueError.

Definition select_period (data : loc) (time_start time_end duration : option tval)
  (time_column_name : string) : M sstate loc :=
  bounds <- period_bounds time_start time_end duration;;
  let (t1, t2) := bounds in
  slog (DSelecting (tval_ns t1) (tval_ns t2));;
  o <- deref data;;
  match o with
  | OFrame _ => select_one t1 t2 time_column_name "(single)" data
  | ODict es =>
      es' <- mapM (fun kv => l' <- select_one t1 t2 time_column_name (fst kv) (snd kv);;
                             ret (fst kv, l')) es;;
      alloc (ODict es')
  | OValue _ => raise AttributeError
  end.

(* ------------------------------------------------------------------ *)
(** ** What the properties talk about *)


(** A computation only appends to the heap. *)
Definition grows {A} (m : M sstate A) : Prop :=
  forall s, exists ext, s_heap (fst (m s)) = app (s_heap s) ext.

(** A computation that leaves the heap as it is. *)
Definition keeps {A} (m : M sstate A) : Prop :=
  forall s, s_heap (fst (m s)) = s_heap s.

(** How one entry of a bundle is carried to the result: same key; a table is
    replaced by a new table with the same columns, anything else is kept as
    the same object.  [h] is the heap before the call, [h'] after it. *)
Definition entry_selected (h h' : list obj) (kv kv' : string * loc) : Prop :=
  fst kv' = fst kv /\
  match nth_error h (snd kv) with
  | Some (OFrame f) =>
      (length h <= snd kv')%nat
      /\ exists f', nth_error h' (snd kv') = Some (OFrame f') /\ f_cols f' = f_cols f
  | Some _ => snd kv' = snd kv
  | None => True
  end.





(** The objects [_process_json_objs] takes as survey responses. *)
Definition is_survey_obj (o : dict json) : bool :=
  match dict_get "File" o, dict_get "Status" o, dict_get "Record" o with
  | None, None, None => dict_mem "question" o
  | _, _, _ => false
  end.

(** The objects it reports as unknown. *)
Definition is_unknown_obj (o : dict json) : bool :=
  match dict_get "File" o, dict_get "Status" o, dict_get "Record" o with
  | None, None, None => negb (dict_mem "question" o)
  | _, _, _ => false
  end.


(** The mask of [_select] on one row: its time lies in [[t1, t2]]. *)
Definition in_period (t1 t2 : tval) (i : nat) (r : list pyval) : bool :=
  match time_of (nth i r (POther JNull)) with
  | Some x => (tval_ns t1 <=? x) && (x <=? tval_ns t2)
  | None => false
  end.

(* ------------------------------------------------------------------ *)
(** ** Inputs of the worked examples *)


(** A table with a timestamp column. *)
Definition frame_c7 : pframe :=
  mkFrame [("time_absolute", KTimestamp)] [[PTime (Some 1000)]; [PTime (Some 2000)]].

(** A JSON string literal: [s] between double quotes. *)
Definition qt (s : string) : string := String quote_char (s ++ String quote_char EmptyString).

(** A START_RECORD status line and what [json.loads] makes of it. *)
Definition line_c2_rest : string :=
  qt "Status" ++ ": {" ++ qt "state" ++ ": " ++ qt "START_RECORD" ++ "}, "
  ++ qt "Record" ++ ": {" ++ qt "UNIXTimeStamp" ++ ": 1700000000000}}".
Definition line_c2 : string := String "{" line_c2_rest.
Definition obj_c2 : dict json :=
  [("Status", JObj [("state", JStr "START_RECORD")]);
   ("Record", JObj [("UNIXTimeStamp", JInt 1700000000000)])].

Definition json_loads_c2 (s : string) : loads_result :=
  if String.eqb s line_c2 then Loaded obj_c2 else DecodeError.


Definition no_datetime (s : string) : option (option Z) := None.
Definition no_survey (o : dict json) : result survey_cells := Exc ValueError.



(** A survey response, an object of no known kind, and a ["File"] object
    that sets a key twice. *)
Definition obj_survey : dict json :=
  [("question", JStr "Mood"); ("timeStamp", JInt 1700000005000)].
Definition obj_other : dict json := [("note", JInt 1)].
Definition obj_file : dict json :=
  [("File", JObj [("StudyName", JStr "S1"); ("StudyName", JStr "S2")])].

(** The metadata after the START_RECORD object [obj_c2]. *)
Definition meta_c2 (now : string) : dict mval :=
  [("Parsed_on", MJson (JStr now)); ("StudyName", MJson (JStr "NA"));
   ("StudyInstance", MJson (JStr "NA"));
   ("status_state", MJson (JStr "START_RECORD"));
   ("start_UNIXTimeStamp", MJson (JInt 1700000000000))].



(* ================================================================== *)
(** * Properties *)

(** ** Generic lemmas *)




Lemma Forall2_impl_and {A B} (P Q R : A -> B -> Prop) l1 l2 :
  (forall x y, P x y -> Q x y -> R x y) -> Forall2 P l1 l2 -> Forall2 Q l1 l2 ->
  Forall2 R l1 l2.
Proof.
  intros HR H1; induction H1; intros H2; inversion H2; subst; constructor; auto.
Qed.



(** ** Row-to-table conversion *)




(** An accel row with [time_elapsed] the int64 minimum is kept, its
    [time_elapsed] being [NaT]. *)
Example dataframe_from_list_nat_kept :
  dataframe_from_list [map CStr ["-9223372036854775808"; "1"; "2"; "3"; "4"; "5"]]
    cols_accel [] = ([], Ok [[iNaT; 1; 2; 3; 4; 5]]).
Proof. vm_compute. reflexivity. Qed.

(** ** [select_period] *)

Create HintDb heap_grows.

Lemma grows_ret {A} (a : A) : grows (ret a).
Proof. intros s; exists []; simpl; now rewrite app_nil_r. Qed.
Lemma grows_raise {A} e : grows (A := A) (raise e).
Proof. intros s; exists []; simpl; now rewrite app_nil_r. Qed.
Lemma grows_lift {A} (r : result A) : grows (lift r).
Proof. destruct r; [apply grows_ret | apply grows_raise]. Qed.
Lemma grows_slog d : grows (slog d).
Proof. intros s; exists []; simpl; now rewrite app_nil_r. Qed.
Lemma grows_deref l : grows (deref l).
Proof.
  intros s; exists []; unfold deref; destruct (nth_error _ _); simpl;
    now rewrite app_nil_r.
Qed.
Lemma grows_alloc o : grows (alloc o).
Proof. intros s; exists [o]; reflexivity. Qed.
Lemma grows_bind {A B} (m : M sstate A) (k : A -> M sstate B) :
  grows m -> (forall a, grows (k a)) -> grows (bind m k).
Proof.
  intros Hm Hk s. unfold bind. destruct (Hm s) as [e1 He1].
  destruct (m s) as [s1 [a|e]] eqn:E; simpl in He1 |- *.
  - destruct (Hk a s1) as [e2 He2]. exists (app e1 e2).
    rewrite He2, He1, app_assoc. reflexivity.
  - exists e1; exact He1.
Qed.

#[local] Hint Resolve grows_ret grows_raise grows_lift grows_slog grows_deref
  grows_alloc : heap_grows.

Ltac grows_step :=
  match goal with
  | |- grows (bind _ _) => apply grows_bind; [|intro]
  | |- grows (match ?x with _ => _ end) => destruct x
  | |- grows (if ?b then _ else _) => destruct b
  | |- grows (let (_, _) := ?p in _) => destruct p
  end.

Lemma grows_select_one t1 t2 col name l : grows (select_one t1 t2 col name l).
Proof.
  unfold select_one. repeat (grows_step || eauto with heap_grows).
Qed.

Lemma grows_mapM {A B} (f : A -> M sstate B) (l : list A) :
  (forall a, grows (f a)) -> grows (mapM f l).
Proof.
  intros Hf; induction l as [|x xs IH]; simpl; auto with heap_grows.
  repeat (grows_step || eauto with heap_grows).
Qed.

Lemma grows_select_period data ts te d col :
  grows (select_period data ts te d col).
Proof.
  unfold select_period, period_bounds.
  repeat (grows_step || eauto with heap_grows || apply grows_mapM || intro
          || apply grows_select_one).
Qed.

Lemma grows_period_bounds ts te d : grows (period_bounds ts te d).
Proof.
  unfold period_bounds. repeat (grows_step || eauto with heap_grows).
Qed.

Lemma keeps_ret {A} (a : A) : keeps (ret a).
Proof. intros s; reflexivity. Qed.
Lemma keeps_raise {A} e : keeps (A := A) (raise e).
Proof. intros s; reflexivity. Qed.
Lemma keeps_lift {A} (r : result A) : keeps (lift r).
Proof. destruct r; [apply keeps_ret | apply keeps_raise]. Qed.
Lemma keeps_slog d : keeps (slog d).
Proof. intros s; reflexivity. Qed.
Lemma keeps_bind {A B} (m : M sstate A) (k : A -> M sstate B) :
  keeps m -> (forall a, keeps (k a)) -> keeps (bind m k).
Proof.
  intros Hm Hk s. unfold bind. specialize (Hm s).
  destruct (m s) as [s1 [a|e]]; simpl in Hm |- *; [rewrite Hk|]; exact Hm.
Qed.

Lemma period_bounds_heap ts te d s s1 r :
  period_bounds ts te d s = (s1, r) -> s_heap s1 = s_heap s.
Proof.
  intros E. change s1 with (fst (s1, r)). rewrite <- E. clear E.
  revert s. change (keeps (period_bounds ts te d)). unfold period_bounds.
  repeat match goal with
         | |- keeps (bind _ _) => apply keeps_bind; [|intro]
         | |- keeps (match ?x with _ => _ end) => destruct x
         | |- keeps (if ?b then _ else _) => destruct b
         | |- _ => apply keeps_ret || apply keeps_raise || apply keeps_lift
                   || apply keeps_slog
         end.
Qed.

Lemma bind_ok_inv {S A B} (m : M S A) (k : A -> M S B) s s' b :
  bind m k s = (s', Ok b) -> exists s1 a, m s = (s1, Ok a) /\ k a s1 = (s', Ok b).
Proof.
  unfold bind. destruct (m s) as [s1 [a|e]]; [intros H; eauto | discriminate].
Qed.

Lemma grows_len {A} (m : M sstate A) s s1 r :
  grows m -> m s = (s1, r) -> (length (s_heap s) <= length (s_heap s1))%nat.
Proof.
  intros Hg E. destruct (Hg s) as [e He]. rewrite E in He. simpl in He.
  rewrite He, length_app. lia.
Qed.

Ltac bind_inv H Hs := apply bind_ok_inv in H; destruct H as (?s & ?a & Hs & H).

Lemma nth_error_last {A} (l : list A) (x : A) : nth_error (app l [x]) (length l) = Some x.
Proof. rewrite nth_error_app2 by lia. now rewrite Nat.sub_diag. Qed.

(** [_select] returns a frame freshly allocated from a frame, and any other
    object itself. *)
Lemma select_one_result t1 t2 col name l s s' l' :
  select_one t1 t2 col name l s = (s', Ok l') ->
  match nth_error (s_heap s) l with
  | Some (OFrame f) =>
      (length (s_heap s) <= l')%nat
      /\ exists f', nth_error (s_heap s') l' = Some (OFrame f') /\ f_cols f' = f_cols f
  | Some _ => l' = l
  | None => False
  end.
Proof.
  intros H. unfold select_one in H. bind_inv H H0.
  unfold deref in H0.
  destruct (nth_error (s_heap s) l) as [o|] eqn:Eo; [|discriminate].
  injection H0 as <- <-.
  destruct o as [f|es|j]; [| injection H as _ <-; reflexivity
                           | injection H as _ <-; reflexivity].
  destruct (col_index col (f_cols f)) as [[i k]|]; [|discriminate].
  bind_inv H H1. pose proof (grows_len _ _ _ _ (grows_lift _) H1) as L1.
  bind_inv H H2.
  match type of H2 with
  | ?m _ = _ =>
      assert (L2 := grows_len m _ _ _
                      ltac:(repeat (grows_step || eauto with heap_grows)) H2)
  end.
  bind_inv H H3.
  match type of H3 with
  | ?m _ = _ =>
      assert (L3 := grows_len m _ _ _
                      ltac:(repeat (grows_step || eauto with heap_grows)) H3)
  end.
  bind_inv H H4. pose proof (grows_len _ _ _ _ (grows_slog _) H4) as L4.
  unfold alloc in H. injection H as <- <-. cbn.
  split; [lia|]. eexists; split; [apply nth_error_last | reflexivity].
Qed.

Lemma grows_app {A} (m : M sstate A) s s1 r :
  grows m -> m s = (s1, r) -> exists e, s_heap s1 = app (s_heap s) e.
Proof. intros Hg E. destruct (Hg s) as [e He]. rewrite E in He. eauto. Qed.

Lemma nth_error_prefix {A} (l e : list A) n x :
  nth_error l n = Some x -> nth_error (app l e) n = Some x.
Proof.
  intros H. rewrite nth_error_app1; [exact H|]. apply nth_error_Some. congruence.
Qed.

Lemma entry_selected_mono h e h' e' kv kv' :
  entry_selected (app h e) h' kv kv' -> entry_selected h (app h' e') kv kv'.
Proof.
  unfold entry_selected. intros [Hk Hm]. split; [exact Hk|].
  destruct (nth_error h (snd kv)) as [o|] eqn:Eo; [|exact I].
  rewrite (nth_error_prefix _ e _ _ Eo) in Hm.
  destruct o; try exact Hm.
  destruct Hm as [Hl [f' [Hf' Hc]]]. rewrite length_app in Hl.
  split; [lia|]. exists f'. split; [apply nth_error_prefix; exact Hf' | exact Hc].
Qed.

Lemma select_entries_result t1 t2 col es s s' es' :
  mapM (fun kv => l' <- select_one t1 t2 col (fst kv) (snd kv);; ret (fst kv, l'))
    es s = (s', Ok es') ->
  Forall2 (entry_selected (s_heap s) (s_heap s')) es es'.
Proof.
  revert s es'; induction es as [|kv es IH]; intros s es' H; simpl in H.
  - injection H as _ <-. constructor.
  - bind_inv H H1. bind_inv H1 H2. unfold ret in H1. injection H1 as <- <-.
    bind_inv H H3. unfold ret in H. injection H as <- <-.
    destruct (grows_app _ _ _ _ (grows_select_one _ _ _ _ _) H2) as [e1 He1].
    destruct (grows_app _ _ _ _
                (grows_mapM _ es (fun kv => grows_bind _ _ (grows_select_one _ _ _ _ _)
                                               (fun _ => grows_ret _))) H3) as [e2 He2].
    constructor.
    + apply select_one_result in H2. split; [reflexivity|]. cbn.
      destruct (nth_error (s_heap s) (snd kv)) as [[f|d|j]|]; try exact H2; [|exact I].
      destruct H2 as [Hl [f' [Hf' Hc]]]. split; [exact Hl|].
      exists f'. rewrite He2. split; [apply nth_error_prefix; exact Hf' | exact Hc].
    + apply IH in H3. rewrite He1 in H3.
      eapply Forall2_impl; [|exact H3].
      intros x y Hxy. pose proof (entry_selected_mono _ e1 _ [] _ _ Hxy) as Hm.
      rewrite app_nil_r in Hm. exact Hm.
Qed.

(** C8: [select_period] never mutates its input: every object on the heap
    before the call is still there, unchanged, afterwards (the heap is only
    extended); the result is a new object; from a table it is a new table;
    from a bundle it is a new dict with the same keys in which each table is
    a new table and every other entry (such as the metadata dict) is the
    very same, unchanged, object. *)
Theorem select_period_no_mutation data ts te d col s :
  match select_period data ts te d col s with
  | (s', r) =>
      (exists ext, s_heap s' = app (s_heap s) ext)
      /\ forall l', r = Ok l' ->
         (length (s_heap s) <= l')%nat
         /\ match nth_error (s_heap s) data with
            | Some (OFrame f) =>
                exists f', nth_error (s_heap s') l' = Some (OFrame f')
                           /\ f_cols f' = f_cols f
            | Some (ODict es) =>
                exists es', nth_error (s_heap s') l' = Some (ODict es')
                            /\ Forall2 (entry_selected (s_heap s) (s_heap s')) es es'
            | _ => False
            end
  end.
Proof.
  destruct (select_period data ts te d col s) as [s' r] eqn:E. split.
  { exact (grows_app _ _ _ _ (grows_select_period data ts te d col) E). }
  intros l' ->. unfold select_period in E.
  bind_inv E H1. destruct a as [t1 t2].
  pose proof (period_bounds_heap _ _ _ _ _ _ H1) as He1.
  bind_inv E H2. unfold slog in H2. injection H2 as <- _.
  bind_inv E H3. unfold deref in H3. cbn in He1, H3.
  destruct (nth_error (s_heap s0) data) as [o|] eqn:Eo; [|discriminate].
  injection H3 as <- <-.
  rewrite He1 in Eo. rewrite Eo.
  destruct o as [f|es|j].
  - pose proof (select_one_result _ _ _ _ _ _ _ _ E) as R. cbn in R.
    rewrite He1, Eo in R. exact R.
  - bind_inv E H4. unfold alloc in E. injection E as <- <-. cbn.
    destruct (grows_app _ _ _ _
                (grows_mapM _ es (fun kv => grows_bind _ _ (grows_select_one _ _ _ _ _)
                                               (fun _ => grows_ret _))) H4) as [e2 He2].
    apply select_entries_result in H4. cbn in H4, He2.
    split.
    + rewrite He2, He1, length_app. lia.
    + eexists. split; [apply nth_error_last|].
      eapply Forall2_impl; [|exact H4].
      intros x y Hxy. apply (entry_selected_mono _ []). rewrite app_nil_r, <- He1. exact Hxy.
  - discriminate.
Qed.

(** C5: a zero [Timedelta] passed as [time_start] is falsy, so a call that
    provides [time_start] and [duration] (two of the three arguments) still
    raises the [ValueError] meant for fewer than two arguments. *)
Theorem select_period_zero_start_raises data d col s :
  snd (select_period data (Some (TD 0)) None (Some d) col s) = Exc ValueError.
Proof. reflexivity. Qed.

(** C7: with [D] the zero [Timedelta], [time_start=T, time_end=T+D] selects
    rows from a table, while [time_start=T, duration=D] raises [ValueError]
    for every table and every [T]: the two calls do not agree. *)
Theorem select_period_zero_duration_diverges :
  (forall data T col s,
      snd (select_period data (Some (TS T)) None (Some (TD 0)) col s) = Exc ValueError)
  /\ exists T D T_plus_D s' l',
      tadd (TS T) (TD D) = Ok T_plus_D
      /\ select_period 0%nat (Some (TS T)) (Some T_plus_D) None "time_absolute"
           (mkS [OFrame frame_c7] []) = (s', Ok l')
      /\ nth_error (s_heap s') l' = Some (OFrame (mkFrame (f_cols frame_c7) [[PTime (Some 1000)]]))
      /\ snd (select_period 0%nat (Some (TS T)) None (Some (TD D)) "time_absolute"
               (mkS [OFrame frame_c7] [])) = Exc ValueError.
Proof.
  split.
  - intros. reflexivity.
  - exists 1000, 0. do 3 eexists. split; [reflexivity|].
    split; [vm_compute; reflexivity|]. split; reflexivity.
Qed.

(* ------------------------------------------------------------------ *)
(** ** [parse_file] *)

Lemma read_line_json_obj json_loads version n raw rest o :
  py_strip raw = String "{" rest -> json_loads (String "{" rest) = Loaded o ->
  read_line json_loads version n raw = add_json_obj n o.
Proof. intros H1 H2. unfold read_line. rewrite H1. cbn. rewrite H2. reflexivity. Qed.

(** C2: [_get_start_timestamp] passes the integer [start_UNIXTimeStamp] to
    [pd.to_datetime] without a unit, so it is read as nanoseconds.  For a
    START_RECORD object with [start_UNIXTimeStamp = 1700000000000] followed by
    the hr row [5000,72,95,1000,2000] (version 0.2), the one hr row has
    [time_elapsed] 5 s and confidence 95, and its [time_absolute] is
    [1700000000000 + 5000000000] ns after the epoch (1970-01-01T00:28:25Z),
    not 2023-11-14T22:13:25Z. *)
Theorem parse_file_start_read_as_ns json_loads str_to_datetime survey_cast now file_name :
  json_loads line_c2 = Loaded obj_c2 ->
  exists lg b,
    parse_file json_loads str_to_datetime survey_cast now file_name (2 # 10)
      (FLines [line_c2; "5000,72,95,1000,2000"] None) = (lg, Ok b)
    /\ data_hr b = Some [mkTrow [5000000000; 72; 95; 1000; 2000]
                          (Some (1700000000000 + 5000000000))].
Proof.
  intros H.
  unfold parse_file, read_file, try_with, bind. cbn -[read_line].
  rewrite (read_line_json_obj json_loads (2#10) 0 line_c2 line_c2_rest obj_c2 eq_refl H).
  vm_compute. eexists _, _. split; reflexivity.
Qed.

Lemma parse_file_start_read_as_ns_witness :
  exists lg b,
    parse_file json_loads_c2 no_datetime no_survey "now" "f" (2 # 10)
      (FLines [line_c2; "5000,72,95,1000,2000"] None) = (lg, Ok b)
    /\ data_hr b = Some [mkTrow [5000000000; 72; 95; 1000; 2000]
                          (Some (1700000000000 + 5000000000))].
Proof. apply parse_file_start_read_as_ns. reflexivity. Defined.

(** C4: a line that is not JSON and whose first field is empty (here
    [,x]) is neither an accel row nor an hr row, but [row[0][0]] raises
    [IndexError]; the outer [except Exception] logs it and reading stops.
    No unknown-data diagnostic is emitted, and the well-formed hr row that
    follows is lost: the bundle has no hr table. *)
Theorem parse_file_empty_first_field_stops json_loads str_to_datetime survey_cast now file_name :
  exists b,
    parse_file json_loads str_to_datetime survey_cast now file_name (2 # 10)
      (FLines [",x"; "5000,72,95,1000,2000"] None)
    = ([DReading file_name; DError IndexError; DNoMetadata;
        DNoStartTimestamp (KeyError "start_UNIXTimeStamp");
        DNoStartTimestamp (KeyError "start_UNIXTimeStamp");
        DNoStartTimestamp (KeyError "start_UNIXTimeStamp")], Ok b)
    /\ data_hr b = None.
Proof. vm_compute. eexists. split; reflexivity. Qed.






Lemma dict_get_set {V} k k' (v : V) d :
  dict_get k (dict_set k' v d) = if String.eqb k k' then Some v else dict_get k d.
Proof.
  induction d as [|[k0 v0] r IH]; cbn.
  - reflexivity.
  - destruct (String.eqb_spec k' k0) as [<-|Hne]; cbn.
    + destruct (String.eqb k k'); reflexivity.
    + rewrite IH. destruct (String.eqb_spec k k0) as [->|Hk]; [|reflexivity].
      destruct (String.eqb_spec k0 k'); [congruence|reflexivity].
Qed.























(* ------------------------------------------------------------------ *)
(** ** The reading loop of [parse_file] *)


















(* ------------------------------------------------------------------ *)
(** ** Metadata: [update_metadata] and [_process_json_objs] *)

Lemma dict_get_app {V} k (l1 l2 : dict V) :
  dict_get k (app l1 l2) = match dict_get k l1 with Some v => Some v | None => dict_get k l2 end.
Proof.
  induction l1 as [|[k' v'] r IH]; cbn; [reflexivity|].
  destruct (String.eqb k k'); [reflexivity | exact IH].
Qed.

Lemma find_app_l {A} (p : A -> bool) l1 l2 :
  find p (app l1 l2) = match find p l1 with Some x => Some x | None => find p l2 end.
Proof.
  induction l1 as [|x r IH]; cbn; [reflexivity|]. destruct (p x); [reflexivity | exact IH].
Qed.

Lemma find_ext_l {A} (p q : A -> bool) l :
  (forall x, p x = q x) -> find p l = find q l.
Proof. intros H. induction l as [|x r IH]; cbn; [reflexivity|]. rewrite H, IH. reflexivity. Qed.

Lemma dict_get_fold_set {V W} (g : string -> string) (f : V -> W) k (kvs : dict V) d :
  dict_get k (fold_left (fun acc kv => dict_set (g (fst kv)) (f (snd kv)) acc) kvs d)
  = match find (fun kv => String.eqb k (g (fst kv))) (rev kvs) with
    | Some kv => Some (f (snd kv))
    | None => dict_get k d
    end.
Proof.
  revert d; induction kvs as [|[k0 v0] r IH]; intros d; cbn; [reflexivity|].
  rewrite IH, find_app_l, dict_get_set. cbn.
  destruct (find _ (rev r)); [reflexivity|].
  destruct (String.eqb k (g k0)); reflexivity.
Qed.

Lemma dict_get_find {V} k (d : dict V) :
  dict_get k d = option_map snd (find (fun kv => String.eqb k (fst kv)) d).
Proof.
  induction d as [|[k' v'] r IH]; cbn; [reflexivity|].
  destruct (String.eqb k k'); [reflexivity | exact IH].
Qed.

Lemma string_eqb_app_l p k k' : String.eqb (p ++ k) (p ++ k') = String.eqb k k'.
Proof.
  induction p as [|c p IH]; cbn; [reflexivity|].
  rewrite IH. destruct (Ascii.eqb c c) eqn:E; [reflexivity|].
  rewrite Ascii.eqb_refl in E. discriminate.
Qed.

Lemma dict_set_all_get {V W} p (f : V -> W) k kvs d :
  dict_get (p ++ k) (dict_set_all p f kvs d)
  = match dict_get k (rev kvs) with Some v => Some (f v) | None => dict_get (p ++ k) d end.
Proof.
  unfold dict_set_all. rewrite dict_get_fold_set, (dict_get_find k (rev kvs)).
  rewrite (find_ext_l _ (fun kv => String.eqb k (fst kv))) by (intros; apply string_eqb_app_l).
  destruct (find _ (rev kvs)); reflexivity.
Qed.

Lemma dict_set_all_other {V W} p (f : V -> W) k kvs d :
  (forall k', k <> p ++ k') -> dict_get k (dict_set_all p f kvs d) = dict_get k d.
Proof.
  intros Hk. unfold dict_set_all. rewrite dict_get_fold_set.
  rewrite (find_ext_l _ (fun _ => false)).
  - induction (rev kvs); [reflexivity | exact IHl].
  - intros [k' v]. cbn. destruct (String.eqb_spec k (p ++ k')); [|reflexivity].
    exfalso; exact (Hk k' e).
Qed.

Lemma update_metadata_get_l k o n :
  dict_get k (update_metadata o n)
  = match dict_get k (rev n) with Some v => Some v | None => dict_get k o end.
Proof.
  exact (dict_set_all_get "" (fun v => v) k n o).
Qed.

Lemma dict_set_keys {V} k (v : V) d : exists ext, map fst (dict_set k v d) = app (map fst d) ext.
Proof.
  induction d as [|[k' v'] r IH]; cbn.
  - exists [k]; reflexivity.
  - destruct (String.eqb_spec k k') as [->|].
    + exists []; rewrite app_nil_r; reflexivity.
    + destruct IH as [ext IH]. exists ext. cbn. rewrite IH. reflexivity.
Qed.

Lemma fold_set_keys {V W} (g : string -> string) (f : V -> W) (kvs : dict V) d :
  exists ext, map fst (fold_left (fun acc kv => dict_set (g (fst kv)) (f (snd kv)) acc) kvs d)
              = app (map fst d) ext.
Proof.
  revert d; induction kvs as [|kv r IH]; intros d; cbn.
  - exists []; rewrite app_nil_r; reflexivity.
  - destruct (dict_set_keys (g (fst kv)) (f (snd kv)) d) as [e1 E1].
    destruct (IH (dict_set (g (fst kv)) (f (snd kv)) d)) as [e2 E2].
    exists (app e1 e2). rewrite E2, E1, app_assoc. reflexivity.
Qed.

Lemma update_metadata_keys_l o n : exists ext, map fst (update_metadata o n) = app (map fst o) ext.
Proof. exact (fold_set_keys (fun k => k) (fun v => v) n o). Qed.


(** [Parser.update_metadata]: a key of [new_metadata] takes its last value
    there (existing keys are overwritten), any other key keeps its value;
    the keys of [original_metadata] keep their order, new keys follow. *)
Theorem update_metadata_merge o n :
  (forall k, dict_get k (update_metadata o n)
             = match dict_get k (rev n) with Some v => Some v | None => dict_get k o end)
  /\ exists ext, map fst (update_metadata o n) = app (map fst o) ext.
Proof. split; [intros k; exact (update_metadata_get_l k o n) | exact (update_metadata_keys_l o n)]. Qed.

Lemma lift_ok_inv {S A} (r : result A) (s s' : S) a :
  lift r s = (s', Ok a) -> r = Ok a /\ s' = s.
Proof. destruct r; cbn; intros H; injection H; intros; subst; auto; discriminate. Qed.

Lemma process_obj_rows meta rows o lg lg' meta' rows' :
  process_obj (meta, rows) o lg = (lg', Ok (meta', rows')) ->
  rows' = app rows (if is_survey_obj o then [o] else [])
  /\ lg' = app lg (if is_unknown_obj o then [DUnknownObject o] else []).
Proof.
  unfold process_obj, is_survey_obj, is_unknown_obj.
  destruct (dict_get "File" o) as [v|].
  { intros H. bind_inv H H1. apply lift_ok_inv in H1 as [_ ->].
    unfold ret in H. injection H as <- _ <-. rewrite !app_nil_r. auto. }
  destruct (dict_get "Status" o) as [v|].
  { intros H. bind_inv H H1. apply lift_ok_inv in H1 as [_ ->].
    bind_inv H H2. apply lift_ok_inv in H2 as [_ ->].
    rewrite !app_nil_r.
    destruct (json_eq_str _ _).
    - bind_inv H H3. apply lift_ok_inv in H3 as [_ ->].
      bind_inv H H4. apply lift_ok_inv in H4 as [_ ->].
      unfold ret in H. injection H as <- _ <-. auto.
    - destruct (json_eq_str _ _).
      + bind_inv H H3. apply lift_ok_inv in H3 as [_ ->].
        bind_inv H H4. apply lift_ok_inv in H4 as [_ ->].
        unfold ret in H. injection H as <- _ <-. auto.
      + unfold ret in H. injection H as <- _ <-. auto. }
  destruct (dict_get "Record" o) as [v|].
  { intros H. bind_inv H H1. apply lift_ok_inv in H1 as [_ ->].
    rewrite !app_nil_r.
    destruct (json_eq_str _ _).
    - bind_inv H H3. apply lift_ok_inv in H3 as [_ ->].
      unfold ret in H. injection H as <- _ <-. auto.
    - destruct (json_eq_str _ _).
      + bind_inv H H3. apply lift_ok_inv in H3 as [_ ->].
        unfold ret in H. injection H as <- _ <-. auto.
      + unfold ret in H. injection H as <- _ <-. auto. }
  destruct (dict_mem "question" o); cbn.
  - intros H. injection H as <- _ <-. rewrite app_nil_r. auto.
  - intros H. injection H as <- _ <-. rewrite app_nil_r. auto.
Qed.

Lemma foldM_process_obj_rows objs meta rows lg lg' meta' rows' :
  foldM process_obj objs (meta, rows) lg = (lg', Ok (meta', rows')) ->
  rows' = app rows (filter is_survey_obj objs)
  /\ lg' = app lg (map DUnknownObject (filter is_unknown_obj objs)).
Proof.
  revert meta rows lg. induction objs as [|o r IH]; intros meta rows lg H; cbn in H |- *.
  - injection H as <- <- <-. rewrite !app_nil_r. auto.
  - bind_inv H H1. destruct a as [m1 rs1].
    apply process_obj_rows in H1 as [-> ->].
    apply IH in H as [-> ->].
    destruct (is_survey_obj o), (is_unknown_obj o); cbn; rewrite <- !app_assoc; auto.
Qed.

(** The loop of [Parser._process_json_objs]: when it completes, the survey
    rows are exactly the objects with a ["question"] key and none of
    ["File"], ["Status"], ["Record"], in input order, and an "Unknown object"
    diagnostic is logged for each object with none of the four keys. *)
Theorem process_json_objs_loop_rows objs meta rows lg lg' meta' rows' :
  foldM process_obj objs (meta, rows) lg = (lg', Ok (meta', rows')) ->
  rows' = app rows (filter is_survey_obj objs)
  /\ lg' = app lg (map DUnknownObject (filter is_unknown_obj objs)).
Proof. apply foldM_process_obj_rows. Qed.

(** One metadata object in the loop of [Parser._process_json_objs]: the
    entries of a ["File"] object are copied under their own keys, and for a
    START_RECORD status (the ["Status"] format, or the old ["Record"] format)
    each entry [k] of the ["Record"] object is copied to ["start_" + k]; a
    repeated key takes its last value, other keys are untouched.  In the
    ["Status"] format the status entries also go to ["status_" + k]. *)
Theorem process_obj_metadata meta rows o lg lg' meta' rows' :
  process_obj (meta, rows) o lg = (lg', Ok (meta', rows')) ->
  (forall kvs, dict_get "File" o = Some (JObj kvs) ->
     forall k, dict_get k meta'
               = match dict_get k (rev kvs) with Some v => Some (MJson v)
                 | None => dict_get k meta end)
  /\ (dict_get "File" o = None ->
      (exists st, dict_get "Status" o = Some st /\ subscript st "state" = Ok (JStr "START_RECORD"))
      \/ (dict_get "Status" o = None
          /\ exists r, dict_get "Record" o = Some r
                       /\ subscript r "State" = Ok (JStr "START_RECORD")) ->
      exists r, dict_get "Record" o = Some (JObj r)
        /\ forall k, dict_get ("start_" ++ k) meta'
                     = match dict_get k (rev r) with Some v => Some (MJson v)
                       | None => dict_get ("start_" ++ k) meta end).
Proof.
  unfold process_obj. intros H. split.
  - intros kvs Hf k. rewrite Hf in H. cbn in H. unfold ret in H. injection H as _ <- _.
    exact (dict_set_all_get "" MJson k kvs meta).
  - intros Hf Hs. rewrite Hf in H.
    destruct Hs as [[st [Hst Hstate]] | [Hst [r0 [Hr Hstate]]]]; rewrite Hst in H.
    + bind_inv H H1. apply lift_ok_inv in H1 as [Hi ->].
      bind_inv H H2. apply lift_ok_inv in H2 as [H2 ->].
      rewrite Hstate in H2. injection H2 as <-. cbn [json_eq_str String.eqb] in H.
      bind_inv H H3. apply lift_ok_inv in H3 as [H3 ->].
      bind_inv H H4. apply lift_ok_inv in H4 as [H4 ->].
      unfold ret in H. injection H as _ <- _.
      cbn in H3. destruct (dict_get "Record" o) as [r|]; [|discriminate].
      injection H3 as <-. destruct r as [| | | | | | | |r]; try discriminate.
      injection H4 as <-. exists r. split; [reflexivity|]. intros k.
      rewrite dict_set_all_get.
      destruct (dict_get k (rev r)); [reflexivity|].
      apply dict_set_all_other. intros k' E.
      apply (f_equal (fun s => String.substring 3 1 s)) in E. discriminate.
    + rewrite Hr in H. bind_inv H H1. apply lift_ok_inv in H1 as [H1 ->].
      rewrite Hstate in H1. injection H1 as <-. cbn [json_eq_str String.eqb] in H.
      bind_inv H H3. apply lift_ok_inv in H3 as [H3 ->].
      unfold ret in H. injection H as _ <- _.
      destruct r0 as [| | | | | | | |r]; try discriminate.
      injection H3 as <-. exists r. split; [exact Hr|]. intros k.
      apply dict_set_all_get.
Qed.





(* ------------------------------------------------------------------ *)
(** ** Record start and counts *)












(* ------------------------------------------------------------------ *)
(** ** [select_period] on a table *)

Lemma filter_mask {A} (p : A -> bool) (l : list A) :
  map fst (filter snd (combine l (map p l))) = filter p l.
Proof. induction l as [|x r IH]; cbn; [reflexivity|]. destruct (p x); cbn; congruence. Qed.

Lemma length_filter_id_map {A} (p : A -> bool) (l : list A) :
  length (filter id (map p l)) = length (filter p l).
Proof. induction l as [|x r IH]; cbn; [reflexivity|]. destruct (p x); cbn; congruence. Qed.

Lemma slog_inv d s s' u : slog d s = (s', Ok u) -> s' = mkS (s_heap s) (app (s_log s) [d]).
Proof. unfold slog. intros H. injection H as <-. reflexivity. Qed.

Lemma select_one_frame t1 t2 col name l s s' l' f i k :
  nth_error (s_heap s) l = Some (OFrame f) -> col_index col (f_cols f) = Some (i, k) ->
  select_one t1 t2 col name l s = (s', Ok l') ->
  let rows := filter (in_period t1 t2 i) (f_rows f) in
  comparable t1 k = true /\ comparable t2 k = true
  /\ s_heap s' = app (s_heap s) [OFrame (mkFrame (f_cols f) rows)]
  /\ l' = length (s_heap s)
  /\ exists ds, s_log s' = app (s_log s) (app ds [DSamples name (length rows)]).
Proof.
  intros Hl Hc H. cbv zeta. unfold select_one in H. bind_inv H H0.
  unfold deref in H0. rewrite Hl in H0. injection H0 as <- <-. rewrite Hc in H.
  bind_inv H H1. apply lift_ok_inv in H1 as [_ ->].
  apply bind_ok_inv in H as (sw & u & H2 & H).
  assert (W : s_heap sw = s_heap s /\ exists ds, s_log sw = app (s_log s) ds).
  { destruct a.
    - apply slog_inv in H2. subst sw. cbn. eauto.
    - apply bind_ok_inv in H2 as (sx & c2 & H3 & H2). apply lift_ok_inv in H3 as [_ ->].
      destruct c2.
      + apply slog_inv in H2. subst sw. cbn. eauto.
      + unfold ret in H2. injection H2 as <-. split; [reflexivity|].
        exists []. symmetry; apply app_nil_r. }
  destruct W as [Wh [ds Wl]].
  apply bind_ok_inv in H as (sc & u' & H3 & H).
  destruct (comparable t1 k) eqn:E1, (comparable t2 k) eqn:E2; cbn in H3;
    try discriminate.
  injection H3 as <-.
  apply bind_ok_inv in H as (sd & u'' & H4 & H). apply slog_inv in H4. subst sd.
  unfold alloc in H. injection H as <- <-. cbn.
  rewrite map_map, filter_mask, length_filter_id_map, Wh.
  split; [reflexivity|]. split; [reflexivity|].
  split; [reflexivity|]. split; [reflexivity|].
  exists ds. rewrite Wl, <- app_assoc. reflexivity.
Qed.

Lemma select_period_frame_rows data ts te du col s s' l' f i k :
  nth_error (s_heap s) data = Some (OFrame f) -> col_index col (f_cols f) = Some (i, k) ->
  select_period data ts te du col s = (s', Ok l') ->
  exists t1 t2 s1,
    period_bounds ts te du s = (s1, Ok (t1, t2))
    /\ comparable t1 k = true /\ comparable t2 k = true
    /\ s_heap s' = app (s_heap s)
                     [OFrame (mkFrame (f_cols f) (filter (in_period t1 t2 i) (f_rows f)))]
    /\ l' = length (s_heap s)
    /\ exists ds, s_log s' = app (s_log s1)
                    (DSelecting (tval_ns t1) (tval_ns t2)
                     :: app ds [DSamples "(single)"
                                  (length (filter (in_period t1 t2 i) (f_rows f)))]).
Proof.
  intros Hl Hc H. unfold select_period in H.
  apply bind_ok_inv in H as (s1 & [t1 t2] & Hb & H).
  pose proof (period_bounds_heap _ _ _ _ _ _ Hb) as Hh.
  apply bind_ok_inv in H as (s2 & u & H1 & H). apply slog_inv in H1. subst s2.
  apply bind_ok_inv in H as (s3 & o & H2 & H). unfold deref in H2. cbn in H2.
  rewrite Hh, Hl in H2. injection H2 as <- <-.
  assert (Hl' : nth_error (s_heap (mkS (s_heap s) (app (s_log s1) [DSelecting (tval_ns t1) (tval_ns t2)]))) data
                = Some (OFrame f)) by exact Hl.
  destruct (select_one_frame _ _ _ _ _ _ _ _ _ _ _ Hl' Hc H) as (C1 & C2 & Eh & El & ds & Eg).
  cbn in Eh, El, Eg.
  exists t1, t2, s1. repeat split; auto.
  exists ds. rewrite Eg, <- app_assoc. reflexivity.
Qed.

(** [select_period] on a table: when it returns, the result is a new table
    (allocated after every existing object) with the same columns, holding
    exactly the rows whose time lies in [[t1, t2]], in order, where
    [(t1, t2)] are the bounds computed from the arguments; both bounds are
    comparable with the time column, and the last line printed reports the
    number of rows kept. *)
Theorem select_period_table data ts te du col s s' l' f i k :
  nth_error (s_heap s) data = Some (OFrame f) -> col_index col (f_cols f) = Some (i, k) ->
  select_period data ts te du col s = (s', Ok l') ->
  exists t1 t2 s1,
    period_bounds ts te du s = (s1, Ok (t1, t2))
    /\ comparable t1 k = true /\ comparable t2 k = true
    /\ s_heap s' = app (s_heap s)
                     [OFrame (mkFrame (f_cols f) (filter (in_period t1 t2 i) (f_rows f)))]
    /\ l' = length (s_heap s)
    /\ exists ds, s_log s' = app (s_log s1)
                    (DSelecting (tval_ns t1) (tval_ns t2)
                     :: app ds [DSamples "(single)"
                                  (length (filter (in_period t1 t2 i) (f_rows f)))]).
Proof. apply select_period_frame_rows. Qed.

(** Selecting twice from a table: the second selection, applied to the
    table the first returns, keeps exactly the rows of the original table
    whose time lies in both periods, [[t1, t2]] computed from the first
    call's arguments and [[t1', t2']] from the second's. *)
Theorem select_period_twice data ts te du ts' te' du' col s s1 s2 l1 l2 f i k :
  nth_error (s_heap s) data = Some (OFrame f) -> col_index col (f_cols f) = Some (i, k) ->
  select_period data ts te du col s = (s1, Ok l1) ->
  select_period l1 ts' te' du' col s1 = (s2, Ok l2) ->
  exists t1 t2 t1' t2' u1 u2,
    period_bounds ts te du s = (u1, Ok (t1, t2))
    /\ period_bounds ts' te' du' s1 = (u2, Ok (t1', t2'))
    /\ nth_error (s_heap s2) l2
    = Some (OFrame (mkFrame (f_cols f)
                      (filter (fun r => in_period t1 t2 i r && in_period t1' t2' i r)
                         (f_rows f)))).
Proof.
  intros Hl Hc H1 H2.
  destruct (select_period_frame_rows _ _ _ _ _ _ _ _ _ _ _ Hl Hc H1)
    as (t1 & t2 & u1 & Hb1 & _ & _ & Eh1 & El1 & _).
  assert (Hl1 : nth_error (s_heap s1) l1
                = Some (OFrame (mkFrame (f_cols f) (filter (in_period t1 t2 i) (f_rows f))))).
  { rewrite Eh1, El1. apply nth_error_last. }
  destruct (select_period_frame_rows _ _ _ _ _ _ _ _ _ _ _ Hl1 Hc H2)
    as (t1' & t2' & u2 & Hb2 & _ & _ & Eh2 & El2 & _).
  exists t1, t2, t1', t2', u1, u2. split; [exact Hb1|]. split; [exact Hb2|].
  rewrite Eh2, El2, nth_error_last. cbn.
  clear. induction (f_rows f) as [|r rs IH]; cbn; [reflexivity|].
  destruct (in_period t1 t2 i r); cbn; [destruct (in_period t1' t2' i r); cbn|]; congruence.
Qed.

(** [select_period] on a table without the requested time column raises
    [KeyError] (once the bounds are computed). *)
Theorem select_period_missing_column data ts te du col s s1 b f :
  nth_error (s_heap s) data = Some (OFrame f) -> col_index col (f_cols f) = None ->
  period_bounds ts te du s = (s1, Ok b) ->
  snd (select_period data ts te du col s) = Exc (KeyError col).
Proof.
  intros Hl Hc Hb. pose proof (period_bounds_heap _ _ _ _ _ _ Hb) as Hh.
  unfold select_period, bind at 1. rewrite Hb. destruct b as [t1 t2].
  destruct s1 as [h1 g1]. cbn in Hh. subst h1.
  unfold bind at 1, slog at 1. cbv beta iota.
  unfold bind at 1, deref at 1. cbn [s_heap]. rewrite Hl. cbv beta iota.
  unfold select_one, bind at 1, deref at 1. cbn [s_heap]. rewrite Hl. cbv beta iota.
  rewrite Hc. reflexivity.
Qed.

(* ------------------------------------------------------------------ *)
(** ** Worked examples of the properties above *)


Lemma process_json_objs_loop_rows_witness :
  let objs := [obj_file; obj_c2; obj_survey; obj_other] in
  let meta' := [("Parsed_on", MJson (JStr "now")); ("StudyName", MJson (JStr "S2"));
                ("StudyInstance", MJson (JStr "NA"));
                ("status_state", MJson (JStr "START_RECORD"));
                ("start_UNIXTimeStamp", MJson (JInt 1700000000000))] in
  foldM process_obj objs (meta_init "now", []) []
  = ([DUnknownObject obj_other], Ok (meta', [obj_survey]))
  /\ [obj_survey] = app [] (filter is_survey_obj objs)
  /\ [DUnknownObject obj_other] = app [] (map DUnknownObject (filter is_unknown_obj objs)).
Proof.
  cbv zeta.
  match goal with |- ?E /\ _ => assert (H : E) by (vm_compute; reflexivity) end.
  split; [exact H | exact (process_json_objs_loop_rows _ _ _ _ _ _ _ H)].
Defined.

Lemma process_obj_metadata_witness :
  process_obj (meta_init "now", []) obj_c2 [] = ([], Ok (meta_c2 "now", []))
  /\ dict_get ("start_" ++ "UNIXTimeStamp") (meta_c2 "now")
     = Some (MJson (JInt 1700000000000)).
Proof.
  assert (E : process_obj (meta_init "now", []) obj_c2 [] = ([], Ok (meta_c2 "now", [])))
    by (vm_compute; reflexivity).
  split; [exact E|].
  destruct (process_obj_metadata _ _ _ _ _ _ _ E) as [_ H2].
  destruct (H2 eq_refl (or_introl (ex_intro _ _ (conj eq_refl eq_refl)))) as [r [Hr Hk]].
  rewrite Hk. injection Hr as <-. reflexivity.
Defined.





Lemma select_period_table_witness :
  exists s' l',
    select_period 0%nat (Some (TS 1500)) (Some (TS 2500)) None "time_absolute"
      (mkS [OFrame frame_c7] []) = (s', Ok l')
    /\ nth_error (s_heap s') l'
       = Some (OFrame (mkFrame (f_cols frame_c7)
                         (filter (in_period (TS 1500) (TS 2500) 0%nat) (f_rows frame_c7)))).
Proof.
  destruct (select_period 0%nat (Some (TS 1500)) (Some (TS 2500)) None "time_absolute"
              (mkS [OFrame frame_c7] [])) as [s' [l'|e]] eqn:E;
    [|vm_compute in E; discriminate].
  exists s', l'. split; [reflexivity|].
  destruct (select_period_table 0%nat (Some (TS 1500)) (Some (TS 2500)) None
              "time_absolute" (mkS [OFrame frame_c7] []) s' l' frame_c7 0%nat KTimestamp
              eq_refl eq_refl E)
    as (t1 & t2 & s1 & Hb & _ & _ & Eh & El & _).
  vm_compute in Hb. injection Hb as _ <- <-. rewrite Eh, El. apply nth_error_last.
Defined.

Lemma select_period_twice_witness :
  let s1 := mkS [OFrame frame_c7;
                 OFrame (mkFrame [("time_absolute", KTimestamp)] [[PTime (Some 2000)]])]
                [DSelecting 1500 2500; DSamples "(single)" 1%nat] in
  select_period 0%nat (Some (TS 1500)) (Some (TS 2500)) None "time_absolute"
    (mkS [OFrame frame_c7] []) = (s1, Ok 1%nat)
  /\ exists s2 l2,
       select_period 1%nat (Some (TS 1800)) None (Some (TD 1000)) "time_absolute" s1 = (s2, Ok l2)
       /\ exists t1 t2 t1' t2' u1 u2,
            period_bounds (Some (TS 1500)) (Some (TS 2500)) None (mkS [OFrame frame_c7] [])
            = (u1, Ok (t1, t2))
            /\ period_bounds (Some (TS 1800)) None (Some (TD 1000)) s1 = (u2, Ok (t1', t2'))
            /\ nth_error (s_heap s2) l2
            = Some (OFrame (mkFrame (f_cols frame_c7)
                              (filter (fun r => in_period t1 t2 0%nat r && in_period t1' t2' 0%nat r)
                                 (f_rows frame_c7)))).
Proof.
  cbv zeta.
  match goal with |- ?E /\ _ => assert (H1 : E) by (vm_compute; reflexivity) end.
  split; [exact H1|].
  destruct (select_period 1%nat (Some (TS 1800)) None (Some (TD 1000)) "time_absolute" _)
    as [s2 [l2|e]] eqn:E2; [|vm_compute in E2; discriminate].
  exists s2, l2. split; [reflexivity|].
  exact (select_period_twice 0%nat _ _ _ _ _ _ "time_absolute" (mkS [OFrame frame_c7] [])
           _ _ _ _ frame_c7 0%nat KTimestamp eq_refl eq_refl H1 E2).
Defined.

Lemma select_period_missing_column_witness :
  period_bounds (Some (TS 1000)) (Some (TS 2000)) None (mkS [OFrame frame_c7] [])
  = (mkS [OFrame frame_c7] [], Ok (TS 1000, TS 2000))
  /\ snd (select_period 0%nat (Some (TS 1000)) (Some (TS 2000)) None "time_elapsed"
            (mkS [OFrame frame_c7] [])) = Exc (KeyError "time_elapsed").
Proof.
  assert (Hb : period_bounds (Some (TS 1000)) (Some (TS 2000)) None (mkS [OFrame frame_c7] [])
               = (mkS [OFrame frame_c7] [], Ok (TS 1000, TS 2000)))
    by (vm_compute; reflexivity).
  split; [exact Hb|].
  exact (select_period_missing_column 0%nat _ _ _ "time_elapsed" (mkS [OFrame frame_c7] [])
           _ _ frame_c7 eq_refl eq_refl Hb).
Defined.
